(** * tsorb: the occupancy model (OccupancyModel.py)

    A shallow embedding of [tsorb/OccupancyModel.py]: the class
    [OccupancyModel] with its constructor, its three read-only properties,
    [run] and the static [set_seed].

    Conventions of the embedding.
    - Python [int] and the entries of numpy integer arrays are [Z]
      (64-bit overflow is out of reach for the values the model handles).
    - Probabilities (numpy floats) are rationals [Q]; rounding is not
      modelled.
    - A raised exception is a value [Raise e]; the process-wide random
      source of [numpy.random] is threaded explicitly and survives an
      exception, as it does in the interpreter.
    - A [dict] is a [gmap] with string keys. A transition table, of which
      only rows are read, is the list of its rows; a start table, of which
      a column is read, carries its width beside its rows, since an array
      without rows still has one. *)

From Stdlib Require Import ZArith QArith Lia.
From stdpp Require Import base option list strings pretty gmap.

Local Open Scope Z_scope.

(** ** Exceptions *)

(** The texts of the [ValueError]s the module raises, and the one numpy
    raises for a seed out of range. *)
Inductive message : Type :=
  | msg_run_first          (* Function "run" of OccupancyModel needs to be called first. *)
  | msg_four_states_only   (* Just a four state occupancy model can return these states. ... *)
  | msg_seed_range.        (* Seed must be between 0 and 2**32 - 1 *)

Inductive exn : Type :=
  | ValueError (m : message)
  | KeyError
  | IndexError
  | OverflowError
  | TypeError
  | InvalidInputError.

Inductive result (A : Type) : Type :=
  | Ok (a : A)
  | Raise (e : exn).
Arguments Ok {A} a.
Arguments Raise {A} e.

#[global] Instance result_ret : MRet result := λ A a, Ok a.
#[global] Instance result_bind : MBind result := λ A B f r,
  match r with
  | Ok a => f a
  | Raise e => Raise e
  end.

(** The spec's error taxonomy, read off the raised exception. *)
Definition is_state_error (e : exn) : Prop := e = ValueError msg_run_first.
Definition is_configuration_mismatch (e : exn) : Prop := e = ValueError msg_four_states_only.
Definition is_lookup_error (e : exn) : Prop := e = KeyError ∨ e = IndexError.

(** ** The random source *)

(** [numpy.random]'s global generator: the stream of uniform variates in
    [0, 1) fixed by the last seeding, and how many of them were consumed. *)
Record RandomState : Type := mkRandomState {
  stream : nat → Q;
  pos : nat
}.

Definition advance (g : RandomState) (n : nat) : RandomState :=
  {| stream := stream g; pos := (pos g + n)%nat |}.

(** Computations that may raise and that draw from the random source. *)
Definition M (A : Type) : Type := RandomState → result A * RandomState.

#[global] Instance M_ret : MRet M := λ A a g, (Ok a, g).
#[global] Instance M_bind : MBind M := λ A B f m g,
  match m g with
  | (Ok a, g') => f a g'
  | (Raise e, g') => (Raise e, g')
  end.

Definition lift {A} (r : result A) : M A := λ g, (r, g).

(** One uniform variate. *)
Definition random_sample : M Q := λ g, (Ok (stream g (pos g)), advance g 1).

(** ** numpy and dict access *)

(** Whether a Python integer fits a C long of 64 bits. *)
Definition fits_c_long (i : Z) : bool := (- 2 ^ 63 <=? i) && (i <? 2 ^ 63).

(** numpy's check of an integer index [i] against an axis of length [n]:
    an index that does not fit a C long raises [OverflowError]; a negative
    index counts from the end; an index out of range raises [IndexError].
    The result is the position counted from the front. *)
Definition check_index (n : nat) (i : Z) : result nat :=
  if fits_c_long i then
    let j := if i <? 0 then i + Z.of_nat n else i in
    if (0 <=? j) && (j <? Z.of_nat n) then Ok (Z.to_nat j)
    else Raise IndexError
  else Raise OverflowError.

(** [a[i]] on a sequence. *)
Definition np_index {A} (a : list A) (i : Z) : result A :=
  j ← check_index (length a) i;
  match a !! j with
  | Some x => Ok x
  | None => Raise IndexError
  end.

Definition Matrix : Type := list (list Q).

(** A 2-D array with its shape: the rows and the number of columns. *)
Record Array2 : Type := mkArray2 {
  width : nat;
  rows : Matrix
}.

(** [m[:, c]]: the index is checked against the width of the array, then
    taken in every row. *)
Definition column (m : Array2) (c : Z) : result (list Q) :=
  _ ← check_index (width m) c;
  mapM (λ row, np_index row c) (rows m).

(** [m[r, 2:]] *)
Definition row_from_2 (m : Matrix) (r : Z) : result (list Q) :=
  row ← np_index m r; mret (drop 2 row).

(** [d[k]] on a dict *)
Definition dict_get {V} (d : gmap string V) (k : string) : result V :=
  match d !! k with
  | Some v => Ok v
  | None => Raise KeyError
  end.

(** [np.zeros(n, int)] *)
Definition zeros (n : nat) : list Z := replicate n 0.

(** ** The discrete sampler (tsorb.utils.DPD) *)

Record DPD : Type := mkDPD { dpd_data : list Q }.

Definition total (weights : list Q) : Q := foldr Qplus 0%Q weights.

(** The smallest index whose cumulative sum exceeds [u]; [cum] is the sum
    of the weights before index [i]. *)
Fixpoint first_exceeding (u cum : Q) (i : Z) (weights : list Q) : option Z :=
  match weights with
  | [] => None
  | w :: rest =>
      let cum' := (cum + w)%Q in
      if Qle_bool cum' u then first_exceeding u cum' (i + 1) rest else Some i
  end.

(** Modelled from the spec: the module [tsorb/utils/DPD.py] is not part of
    the sources at hand. Following the contract of the discrete sampler:
    the total of the weights must be positive, else an invalid-input error
    is signalled; one variate [r] is consumed from the random source,
    [u = r * total] lies in [0, total), and the result is the smallest
    index whose cumulative sum exceeds [u]. *)
Definition get_random_interval (d : DPD) : M Z :=
  let weights := dpd_data d in
  if Qle_bool (total weights) 0 then lift (Raise InvalidInputError)
  else
    r ← random_sample;
    match first_exceeding (r * total weights)%Q 0%Q 0 weights with
    | Some i => mret i
    | None => lift (Raise InvalidInputError)
    end.

(** ** The data exchange object and the model *)

(** The four tables of the [DataExchange] object the model reads. *)
Record DataExchange : Type := mkDataExchange {
  get_four_state_start_state : gmap string Array2;
  get_four_state_trans_data : gmap string Matrix;
  get_occ_start_states_data : gmap string Array2;
  get_occ_act_trans_data : gmap string Matrix
}.

Record OccupancyModel : Type := mkOccupancyModel {
  _data_ex : DataExchange;
  _residents : Z;
  _four_states : bool;
  _has_run : bool;
  _states : option (list Z);
  _start_state : gmap string Array2;
  _occ_act_trans_data : gmap string Matrix;
  occ_activity : list Z;
  occ_no_activity : list Z
}.

(** [OccupancyModel.__init__] *)
Definition __init__ (data_ex : DataExchange) (residents : Z) (four_states : bool)
  : result OccupancyModel :=
  Ok {| _data_ex := data_ex;
        _residents := residents;
        _four_states := four_states;
        _has_run := false;
        _states := None;
        _start_state :=
          if four_states then get_four_state_start_state data_ex
          else get_occ_start_states_data data_ex;
        _occ_act_trans_data :=
          if four_states then get_four_state_trans_data data_ex
          else get_occ_act_trans_data data_ex;
        occ_activity := zeros 144;
        occ_no_activity := zeros 144 |}.

(** The properties. *)
Definition get_residents (self : OccupancyModel) : result Z :=
  Ok (_residents self).

Definition get_occ_no_activity (self : OccupancyModel) : result (list Z) :=
  if negb (_has_run self) then Raise (ValueError msg_run_first)
  else if negb (_four_states self) then Raise (ValueError msg_four_states_only)
  else Ok (occ_no_activity self).

Definition get_occ_activity (self : OccupancyModel) : result (list Z) :=
  if negb (_has_run self) then Raise (ValueError msg_run_first)
  else Ok (occ_activity self).

(** ** run *)

(** [np.floor(x / d).astype(int)] on integers: the floor of the quotient.
    For [d = 0] numpy divides to inf or nan (with a warning, no exception)
    and the cast yields the least 64-bit integer on the usual platforms. *)
Definition np_floor_div (x d : Z) : Z :=
  if d =? 0 then - 2 ^ 63 else x / d.

(** [np.fmod(x, d)] on integers: the remainder with the sign of [x];
    0 (with a warning) for [d = 0]. *)
Definition np_fmod (x d : Z) : Z :=
  if d =? 0 then 0 else Z.rem x d.

(** Lines 82-83: the start distribution and the transition table for the
    day type and the number of residents. *)
Definition lookup_tables (self : OccupancyModel) (day_of_week : string)
  : result (list Q * Matrix) :=
  start_matrix ← dict_get (_start_state self) day_of_week;
  start_state ← column start_matrix (_residents self - 1);
  act_transition ←
    dict_get (_occ_act_trans_data self) (day_of_week +:+ pretty (_residents self));
  mret (start_state, act_transition).

(** Line 91: [int((residents + 1) * math.floor(start_ix / 7)
    + int(math.fmod(start_ix, 7)))]. *)
Definition four_state_start (residents start_ix : Z) : Z :=
  (residents + 1) * (start_ix / 7) + Z.rem start_ix 7.

(** Lines 87-94: the index jump per interval and the drawn start state. *)
Definition draw_start (self : OccupancyModel) (dpd : DPD) : M (Z * Z) :=
  if _four_states self then
    let num_row_jump := (_residents self + 1) ^ 2 in
    start_ix ← get_random_interval dpd;
    mret (num_row_jump, four_state_start (_residents self) start_ix)
  else
    let num_row_jump := 7 in
    state ← get_random_interval dpd;
    mret (num_row_jump, state).

(** [self._states[-1]] *)
Definition last_state (self : OccupancyModel) : result Z :=
  match _states self with
  | Some states => np_index states (-1)
  | None => Raise TypeError
  end.

(** Lines 102-106: the loop over the intervals of the day. *)
Fixpoint run_loop (act_transition : Matrix) (num_row_jump : Z)
    (intervals : list nat) (state : Z) (states : list Z) : M (Z * list Z) :=
  match intervals with
  | [] => mret (state, states)
  | interval :: rest =>
      row ← lift (row_from_2 act_transition
                    (num_row_jump * Z.of_nat interval + state));
      let dpd := mkDPD row in
      state ← get_random_interval dpd;
      run_loop act_transition num_row_jump rest state (<[interval := state]> states)
  end.

(** Lines 109-118: decode and store the results. *)
Definition save_results (self : OccupancyModel) (states : list Z) : OccupancyModel :=
  let residents := _residents self in
  let home := (λ s, np_floor_div s (residents + 1)) <$> states in
  let active := (λ s, np_fmod s (residents + 1)) <$> states in
  {| _data_ex := _data_ex self;
     _residents := residents;
     _four_states := _four_states self;
     _has_run := true;
     _states := Some states;
     _start_state := _start_state self;
     _occ_act_trans_data := _occ_act_trans_data self;
     occ_activity :=
       if _four_states self then zip_with Z.min home active else states;
     occ_no_activity :=
       if _four_states self then (λ d, Z.max d 0) <$> zip_with Z.sub home active
       else occ_no_activity self |}.

(** [OccupancyModel.run]. The instance is updated only by the last lines,
    so a run that raises leaves it as it was. *)
Definition run (self : OccupancyModel) (day_of_week : string) : M OccupancyModel :=
  let states := zeros 144 in
  '(start_state, act_transition) ← lift (lookup_tables self day_of_week);
  let dpd := mkDPD start_state in
  '(num_row_jump, state) ← draw_start self dpd;
  state ← (if _has_run self then lift (last_state self) else mret state);
  let states := <[0%nat := state]> states in
  '(state, states) ← run_loop act_transition num_row_jump (seq 0 144) state states;
  mret (save_results self states).

(** ** set_seed *)

Section Seeding.

(** The generator behind [np.random.seed]: the stream of variates a seed
    fixes. The Mersenne Twister itself is not modelled. *)
Variable mt19937 : Z → nat → Q.


End Seeding.

(** ** A small data set

    Tables on which the model can be run by evaluation: every transition
    row puts all its weight on the successor of the current state, so the
    chain steps from [c] to [c + 1] modulo the number of states. *)

Module Demo.

(** A weight vector of length [n] with all its weight at index [k]. *)
Definition one_hot (n k : nat) : list Q :=
  (λ i, if Nat.eqb i k then 1%Q else 0%Q) <$> seq 0 n.

(** The stacked transition table for [n] states: 144 blocks of [n] rows;
    a row holds the interval, the current state and the [n] weights. *)
Definition shift_table (n : nat) : Matrix :=
  interval ← seq 0 144;
  c ← seq 0 n;
  [inject_Z (Z.of_nat interval) :: inject_Z (Z.of_nat c)
     :: one_hot n (S c mod n)].

(** A start table of [n] rows and two columns: column 0 starts at index
    [k0], column 1 at index [k1]. *)
Definition start_table (n k0 k1 : nat) : Array2 :=
  mkArray2 2 (zip_with (λ a b, [a; b]) (one_hot n k0) (one_hot n k1)).

Definition data_ex : DataExchange :=
  {| get_four_state_start_state := {[ "wd" := start_table 14 8 0 ]};
     get_four_state_trans_data :=
       {[ "wd1" := shift_table 4; "wd0" := shift_table 1 ]};
     get_occ_start_states_data := {[ "wd" := start_table 7 3 3 ]};
     get_occ_act_trans_data := {[ "wd1" := shift_table 7 ]} |}.

(** A random source: the variates cycle through 0, 1/5, ..., 4/5. *)
Definition g0 : RandomState :=
  {| stream := λ n, (Z.of_nat (n mod 5) # 5)%Q; pos := 0 |}.

End Demo.


(** ** Runs on the small data set

    The instances the constructor returns on the demonstration tables for
    one resident, and what they are after a first and a second run. *)

Module DemoRuns.

Definition four0 : OccupancyModel :=
  mkOccupancyModel Demo.data_ex 1 true false None
    (get_four_state_start_state Demo.data_ex)
    (get_four_state_trans_data Demo.data_ex) (zeros 144) (zeros 144).

Definition seven0 : OccupancyModel :=
  mkOccupancyModel Demo.data_ex 1 false false None
    (get_occ_start_states_data Demo.data_ex)
    (get_occ_act_trans_data Demo.data_ex) (zeros 144) (zeros 144).

(** The instance a call leaves: the updated one, or the old one when the
    call raised. *)
Definition instance_after (r : result OccupancyModel * RandomState)
    (self : OccupancyModel) : OccupancyModel :=
  match r.1 with
  | Ok self' => self'
  | Raise _ => self
  end.

Definition four1 : OccupancyModel :=
  Eval vm_compute in instance_after (run four0 "wd" Demo.g0) four0.

Definition four2 : OccupancyModel :=
  Eval vm_compute in instance_after (run four1 "wd" (advance Demo.g0 145)) four1.

Definition seven1 : OccupancyModel :=
  Eval vm_compute in instance_after (run seven0 "wd" Demo.g0) seven0.

(** The same tables with another start table, whose draw is the index 3;
    the four-state instance on them, as constructed and after a run. *)
Definition data_ex_alt : DataExchange :=
  {| get_four_state_start_state := {[ "wd" := Demo.start_table 14 3 0 ]};
     get_four_state_trans_data := get_four_state_trans_data Demo.data_ex;
     get_occ_start_states_data := get_occ_start_states_data Demo.data_ex;
     get_occ_act_trans_data := get_occ_act_trans_data Demo.data_ex |}.

Definition four0_alt : OccupancyModel :=
  mkOccupancyModel data_ex_alt 1 true false None
    (get_four_state_start_state data_ex_alt)
    (get_four_state_trans_data data_ex_alt) (zeros 144) (zeros 144).

Definition four1_alt : OccupancyModel :=
  Eval vm_compute in instance_after (run four0_alt "wd" Demo.g0) four0_alt.

Definition four2_alt : OccupancyModel :=
  Eval vm_compute in
    instance_after (run four1_alt "wd" (advance Demo.g0 145)) four1_alt.



(** A four-state instance for three residents; the start tables have two
    columns only. *)
Definition three0 : OccupancyModel :=
  mkOccupancyModel Demo.data_ex 3 true false None
    (get_four_state_start_state Demo.data_ex)
    (get_four_state_trans_data Demo.data_ex) (zeros 144) (zeros 144).

End DemoRuns.

(** ** The vocabulary of the specification *)

(** The number of rows of one interval block of the stacked transition
    table: [(residentCount+1)^2] for the four-state variant, 7 otherwise. *)
Definition spec_num_row_jump (self : OccupancyModel) : Z :=
  if _four_states self then (_residents self + 1) ^ 2 else 7.

(** The drawn start index [s] as the initial state: remapped to
    [(residentCount+1) * floor(s/7) + (s mod 7)] for the four-state
    variant, used directly otherwise. *)
Definition spec_initial_state (self : OccupancyModel) (s : Z) : Z :=
  if _four_states self then (_residents self + 1) * (s / 7) + s `mod` 7 else s.

(** The state the chain enters an interval with: the initial state at
    interval 0, the state of the previous interval afterwards. *)
Definition current_state (state0 : Z) (trajectory : list Z) (interval : nat)
  : option Z :=
  match interval with
  | O => Some state0
  | S previous => trajectory !! previous
  end.





(** The instances a program can hold: one as constructed, or one as left
    by a run that returned. A run that raises leaves its instance as it
    was. *)
Inductive reachable (data_ex : DataExchange) (residents : Z) (four_states : bool)
  : OccupancyModel → Prop :=
  | reachable_init self :
      __init__ data_ex residents four_states = Ok self →
      reachable data_ex residents four_states self
  | reachable_run self day_of_week g self' g' :
      reachable data_ex residents four_states self →
      run self day_of_week g = (Ok self', g') →
      reachable data_ex residents four_states self'.

(** * Properties *)

(** ** Inversion of the two monads *)

Lemma result_bind_inv {A B} (r : result A) (f : A → result B) b :
  r ≫= f = Ok b → ∃ a, r = Ok a ∧ f a = Ok b.
Proof. destruct r as [a|e]; simpl; [eauto | discriminate]. Qed.

Lemma M_bind_inv {A B} (m : M A) (f : A → M B) g b g' :
  (m ≫= f) g = (Ok b, g') → ∃ a g1, m g = (Ok a, g1) ∧ f a g1 = (Ok b, g').
Proof.
  unfold mbind, M_bind. destruct (m g) as [[a|e] g1]; [eauto | discriminate].
Qed.

Lemma lift_inv {A} (r : result A) g a g' :
  lift r g = (Ok a, g') → r = Ok a ∧ g' = g.
Proof. unfold lift. intros [= -> ->]. done. Qed.

Lemma M_ret_inv {A} (x : A) g a g' :
  mret (M := M) x g = (Ok a, g') → a = x ∧ g' = g.
Proof. unfold mret, M_ret. intros [= -> ->]. done. Qed.

(** ** The random source *)

Lemma advance_0 g : advance g 0 = g.
Proof. destruct g as [s p]. unfold advance. simpl. f_equal. lia. Qed.

Lemma advance_advance g n m : advance (advance g n) m = advance g (n + m).
Proof. unfold advance. simpl. f_equal. lia. Qed.

(** ** The sampler *)

Lemma first_exceeding_range weights : ∀ u cum i k,
  first_exceeding u cum i weights = Some k →
  i ≤ k < i + Z.of_nat (length weights).
Proof.
  induction weights as [|w rest IH]; intros u cum i k; simpl.
  - discriminate.
  - destruct (Qle_bool (cum + w) u).
    + intros H. apply IH in H. lia.
    + intros [= <-]. lia.
Qed.

(** A successful draw returns an index of the weight vector and consumes
    exactly one variate. *)
Lemma get_random_interval_ok d g i g' :
  get_random_interval d g = (Ok i, g') →
  g' = advance g 1 ∧ 0 ≤ i < Z.of_nat (length (dpd_data d)).
Proof.
  unfold get_random_interval.
  destruct (Qle_bool (total (dpd_data d)) 0); [intros [??]%lift_inv; discriminate|].
  intros (r & g1 & Hr & H)%M_bind_inv.
  unfold random_sample in Hr. injection Hr as <- <-.
  destruct (first_exceeding _ _ _ _) as [k|] eqn:Hk.
  - apply M_ret_inv in H as [-> ->]. split; [done|].
    apply first_exceeding_range in Hk. lia.
  - apply lift_inv in H as [? _]. discriminate.
Qed.

(** ** The loop over the day *)

(** The loop over the intervals [a, a + n): it consumes [n] variates, keeps
    the length of [states] and its entries before [a], and at each interval
    [t] reads the row [num_row_jump * t + current], where [current] is the
    state it entered the interval with, draws from it and stores the draw
    at [t]. *)
Lemma run_loop_spec act_transition num_row_jump n :
  ∀ a state states g last states' g',
    run_loop act_transition num_row_jump (seq a n) state states g
      = (Ok (last, states'), g') →
    (a + n ≤ length states)%nat →
    g' = advance g n ∧ length states' = length states ∧
    (∀ i, (i < a)%nat → states' !! i = states !! i) ∧
    (∀ t, (a ≤ t < a + n)%nat → ∃ current drawn row,
        (if decide (t = a) then Some state else states' !! (t - 1)%nat)
          = Some current ∧
        row_from_2 act_transition (num_row_jump * Z.of_nat t + current) = Ok row ∧
        get_random_interval (mkDPD row) (advance g (t - a))
          = (Ok drawn, advance g (S (t - a))) ∧
        states' !! t = Some drawn).
Proof.
  induction n as [|n IH]; intros a state states g last states' g' Hrun Hlen.
  - simpl in Hrun. apply M_ret_inv in Hrun as [[= -> ->] ->].
    rewrite advance_0. split; [done|]. split; [done|]. split; [done|].
    intros t Ht. lia.
  - simpl in Hrun.
    apply M_bind_inv in Hrun as (row & g0 & [Hrow ->]%lift_inv & Hrun).
    apply M_bind_inv in Hrun as (d & g1 & Hd & Hrun).
    pose proof (get_random_interval_ok _ _ _ _ Hd) as [-> _].
    apply IH in Hrun as (-> & Hl & Hbefore & Hstep);
      [|rewrite length_insert; lia].
    rewrite length_insert in Hl.
    assert (Ha : states' !! a = Some d).
    { rewrite Hbefore by lia. apply list_lookup_insert_eq. lia. }
    split; [by rewrite advance_advance|]. split; [done|]. split.
    + intros i Hi. rewrite Hbefore by lia.
      apply list_lookup_insert_ne. lia.
    + intros t Ht. destruct (decide (t = a)) as [->|Hne].
      * exists state, d, row. rewrite Nat.sub_diag, advance_0. done.
      * destruct (Hstep t ltac:(lia)) as (current & drawn & row' & Hc & Hr & Hs & Ht').
        exists current, drawn, row'. split; [|split; [done|split; [|done]]].
        -- case_decide as Hts; [|done]. subst t. injection Hc as <-.
           by replace (S a - 1)%nat with a by lia.
        -- rewrite !advance_advance in Hs.
           replace (1 + S (t - S a))%nat with (S (t - a)) in Hs by lia.
           by replace (1 + (t - S a))%nat with (t - a)%nat in Hs by lia.
Qed.

(** ** Anatomy of a successful run *)

Lemma four_state_start_nonneg residents s :
  0 ≤ s → four_state_start residents s = (residents + 1) * (s / 7) + s `mod` 7.
Proof. intros Hs. unfold four_state_start. by rewrite Z.rem_mod_nonneg by lia. Qed.

(** A run that returns has resolved its tables, drawn one start index,
    taken the last state of the previous run instead when there was one,
    run the loop over the 144 intervals and stored the decoded result. *)
Lemma run_inv self day_of_week g self' g' :
  run self day_of_week g = (Ok self', g') →
  ∃ start_state act_transition start_ix state0 last trajectory,
    lookup_tables self day_of_week = Ok (start_state, act_transition) ∧
    get_random_interval (mkDPD start_state) g = (Ok start_ix, advance g 1) ∧
    0 ≤ start_ix ∧
    (if _has_run self then last_state self
     else Ok (spec_initial_state self start_ix)) = Ok state0 ∧
    run_loop act_transition (spec_num_row_jump self) (seq 0 144) state0
      (<[0%nat := state0]> (zeros 144)) (advance g 1)
      = (Ok (last, trajectory), g') ∧
    self' = save_results self trajectory.
Proof.
  unfold run. intros Hrun.
  apply M_bind_inv in Hrun as ([start_state act_transition] & g0 & Hlook & Hrun).
  apply lift_inv in Hlook as [Hlook ->].
  apply M_bind_inv in Hrun as ([num_row_jump state] & g1 & Hdraw & Hrun).
  apply M_bind_inv in Hrun as (state0 & g2 & Hprev & Hrun).
  apply M_bind_inv in Hrun as ([last trajectory] & g3 & Hloop & Hrun).
  apply M_ret_inv in Hrun as [-> ->].
  assert (∃ start_ix,
    get_random_interval (mkDPD start_state) g = (Ok start_ix, advance g 1) ∧
    0 ≤ start_ix ∧ g1 = advance g 1 ∧
    num_row_jump = spec_num_row_jump self ∧
    state = spec_initial_state self start_ix) as (start_ix & Hs & Hpos & -> & -> & ->).
  { unfold draw_start, spec_num_row_jump, spec_initial_state in *.
    destruct (_four_states self);
      apply M_bind_inv in Hdraw as (s & g1' & Hs & [[= -> ->] ->]%M_ret_inv);
      pose proof (get_random_interval_ok _ _ _ _ Hs) as [-> [Hpos _]];
      exists s; rewrite ?four_state_start_nonneg by done; done. }
  exists start_state, act_transition, start_ix, state0, last, trajectory.
  assert (g2 = advance g 1 ∧
    (if _has_run self then last_state self
     else Ok (spec_initial_state self start_ix)) = Ok state0) as [-> Hstate0].
  { destruct (_has_run self).
    - by apply lift_inv in Hprev as [-> ->].
    - by apply M_ret_inv in Hprev as [-> ->]. }
  done.
Qed.

(** The chain of a successful run, interval by interval: the draw for the
    start index is followed by 144 draws, one per interval, each from the
    row the current state selects, each stored at its interval. *)
Lemma run_chain self day_of_week g self' g' :
  run self day_of_week g = (Ok self', g') →
  ∃ start_state act_transition start_ix state0 trajectory,
    lookup_tables self day_of_week = Ok (start_state, act_transition) ∧
    get_random_interval (mkDPD start_state) g = (Ok start_ix, advance g 1) ∧
    0 ≤ start_ix ∧
    (if _has_run self then last_state self
     else Ok (spec_initial_state self start_ix)) = Ok state0 ∧
    self' = save_results self trajectory ∧
    length trajectory = 144%nat ∧
    g' = advance g 145 ∧
    ∀ interval, (interval < 144)%nat → ∃ current drawn row,
      current_state state0 trajectory interval = Some current ∧
      row_from_2 act_transition
        (spec_num_row_jump self * Z.of_nat interval + current) = Ok row ∧
      get_random_interval (mkDPD row) (advance g (1 + interval))
        = (Ok drawn, advance g (2 + interval)) ∧
      trajectory !! interval = Some drawn ∧
      0 ≤ drawn.
Proof.
  intros (start_state & act_transition & start_ix & state0 & last & trajectory
          & Hlook & Hstart & Hpos & Hstate0 & Hloop & ->)%run_inv.
  apply run_loop_spec in Hloop as (-> & Hlen & _ & Hstep);
    [|rewrite length_insert; unfold zeros; rewrite length_replicate; lia].
  rewrite length_insert in Hlen. unfold zeros in Hlen.
  rewrite length_replicate in Hlen.
  exists start_state, act_transition, start_ix, state0, trajectory.
  repeat (split; [done|]). split; [by rewrite advance_advance|].
  intros interval Hi.
  destruct (Hstep interval ltac:(lia)) as (current & drawn & row & Hc & Hr & Hs & Ht).
  exists current, drawn, row.
  rewrite !advance_advance, Nat.sub_0_r in Hs.
  pose proof (get_random_interval_ok _ _ _ _ Hs) as [_ [Hdrawn _]].
  split; [|done].
  destruct interval as [|previous]; simpl in *; [done|].
  by rewrite Nat.sub_0_r in Hc.
Qed.

(** The entries of the trajectory of a successful run are indices drawn by
    the sampler, hence not negative. *)
Lemma run_chain_nonneg self day_of_week g self' g' trajectory :
  run self day_of_week g = (Ok self', g') →
  _states self' = Some trajectory →
  length trajectory = 144%nat ∧ Forall (λ rawState, 0 ≤ rawState) trajectory.
Proof.
  intros (ss & tbl & s & state0 & tr & _ & _ & _ & _ & -> & Hlen & _ & Hstep)%run_chain.
  simpl. intros [= <-]. split; [done|].
  apply Forall_lookup. intros t raw Ht.
  destruct (Hstep t) as (_ & drawn & _ & _ & _ & _ & Hd & Hnn).
  { apply lookup_lt_Some in Ht. lia. }
  congruence.
Qed.

(** ** Indexing *)

Lemma fits_c_long_spec i : fits_c_long i = true ↔ - 2 ^ 63 ≤ i < 2 ^ 63.
Proof.
  unfold fits_c_long. rewrite andb_true_iff, Z.leb_le, Z.ltb_lt. done.
Qed.

(** An accepted index is a position within the axis: the index itself when
    it is not negative, counted from the end otherwise. *)
Lemma check_index_ok n i j :
  check_index n i = Ok j →
  (j < n)%nat ∧ Z.of_nat j = (if i <? 0 then i + Z.of_nat n else i).
Proof.
  unfold check_index. destruct (fits_c_long i); [|discriminate].
  destruct (_ && _) eqn:Hin; [|discriminate].
  apply andb_true_iff in Hin as [Hlo%Z.leb_le Hhi%Z.ltb_lt].
  intros [= <-]. lia.
Qed.

(** An index that fits a C long and is refused is out of range. *)
Lemma check_index_raises n i e :
  - 2 ^ 63 ≤ i < 2 ^ 63 → check_index n i = Raise e → e = IndexError.
Proof.
  intros Hfits%fits_c_long_spec. unfold check_index. rewrite Hfits.
  destruct (_ && _); [discriminate|]. by intros [= <-].
Qed.

Lemma check_index_out_of_range n i :
  - 2 ^ 63 ≤ i < 2 ^ 63 →
  ¬ (- Z.of_nat n ≤ i < Z.of_nat n) →
  check_index n i = Raise IndexError.
Proof.
  intros Hfits%fits_c_long_spec Hout. unfold check_index. rewrite Hfits.
  destruct (Z.ltb_spec i 0) as [Hi|Hi].
  - destruct (Z.leb_spec 0 (i + Z.of_nat n));
      destruct (Z.ltb_spec (i + Z.of_nat n) (Z.of_nat n));
      simpl; try done; lia.
  - destruct (Z.leb_spec 0 i); destruct (Z.ltb_spec i (Z.of_nat n));
      simpl; try done; lia.
Qed.

Lemma np_index_raises {A} (a : list A) i e :
  - 2 ^ 63 ≤ i < 2 ^ 63 → np_index a i = Raise e → e = IndexError.
Proof.
  intros Hfits. unfold np_index.
  destruct (check_index (length a) i) as [j|e'] eqn:Hj; simpl.
  - destruct (a !! j); [discriminate|]. by intros [= <-].
  - intros [= <-]. by eapply check_index_raises.
Qed.

Lemma np_index_ok_elem {A} (a : list A) i x : np_index a i = Ok x → x ∈ a.
Proof.
  unfold np_index. intros (j & _ & Hx)%result_bind_inv.
  destruct (a !! j) as [y|] eqn:Hy; [|discriminate].
  injection Hx as <-. apply list_elem_of_lookup. eauto.
Qed.

Lemma np_index_ok_bound {A} (a : list A) i x :
  0 ≤ i → np_index a i = Ok x → i < Z.of_nat (length a).
Proof.
  intros Hi. unfold np_index. intros (j & Hj & _)%result_bind_inv.
  apply check_index_ok in Hj as [Hlt Heq].
  destruct (Z.ltb_spec i 0); lia.
Qed.

(** [a[-1]] is the last entry. *)
Lemma np_index_last {A} (a : list A) x :
  a !! (length a - 1)%nat = Some x → np_index a (-1) = Ok x.
Proof.
  intros Hx. pose proof (lookup_lt_Some _ _ _ Hx) as Hlt.
  assert (Hcheck : check_index (length a) (-1) = Ok (length a - 1)%nat).
  { unfold check_index.
    replace (fits_c_long (-1)) with true by reflexivity.
    replace (-1 <? 0) with true by reflexivity.
    destruct (Z.leb_spec 0 (-1 + Z.of_nat (length a))); [|lia].
    destruct (Z.ltb_spec (-1 + Z.of_nat (length a)) (Z.of_nat (length a))); [|lia].
    simpl. f_equal. lia. }
  unfold np_index. rewrite Hcheck. simpl. by rewrite Hx.
Qed.

Lemma row_from_2_ok act_transition r row :
  row_from_2 act_transition r = Ok row →
  ∃ full, np_index act_transition r = Ok full ∧ row = drop 2 full.
Proof.
  unfold row_from_2. intros (full & Hfull & [= <-])%result_bind_inv. eauto.
Qed.

Lemma column_raises m c e :
  - 2 ^ 63 ≤ c < 2 ^ 63 → column m c = Raise e → e = IndexError.
Proof.
  intros Hfits. unfold column.
  destruct (check_index (width m) c) as [j|e'] eqn:Hj; simpl;
    [|intros [= <-]; by eapply check_index_raises].
  clear Hj. revert e.
  induction (rows m) as [|row rest IH]; intros e; simpl; [discriminate|].
  destruct (np_index row c) as [x|e'] eqn:Hrow; simpl.
  - destruct (mapM _ rest) as [xs|e'']; simpl; [discriminate|].
    intros [= <-]. by apply IH.
  - intros [= <-]. by eapply np_index_raises.
Qed.

(** ** The runs on the small data set *)

Lemma demo_four_first_run :
  run DemoRuns.four0 "wd" Demo.g0 = (Ok DemoRuns.four1, advance Demo.g0 145).
Proof. vm_compute. reflexivity. Qed.

Lemma demo_four_second_run :
  run DemoRuns.four1 "wd" (advance Demo.g0 145)
    = (Ok DemoRuns.four2, advance (advance Demo.g0 145) 145).
Proof. vm_compute. reflexivity. Qed.

Lemma demo_seven_first_run :
  run DemoRuns.seven0 "wd" Demo.g0 = (Ok DemoRuns.seven1, advance Demo.g0 145).
Proof. vm_compute. reflexivity. Qed.

Lemma demo_four_alt_first_run :
  run DemoRuns.four0_alt "wd" Demo.g0
    = (Ok DemoRuns.four1_alt, advance Demo.g0 145).
Proof. vm_compute. reflexivity. Qed.

Lemma demo_four_alt_second_run :
  run DemoRuns.four1_alt "wd" (advance Demo.g0 145)
    = (Ok DemoRuns.four2_alt, advance (advance Demo.g0 145) 145).
Proof. vm_compute. reflexivity. Qed.

Lemma demo_seven_reachable : reachable Demo.data_ex 1 false DemoRuns.seven1.
Proof.
  eapply reachable_run; [|exact demo_seven_first_run].
  apply reachable_init. reflexivity.
Qed.

(** * The claims *)

(** ** Continuity between consecutive runs *)

(** C1: on a second [run] the state taken over from the previous run is
    stored with [states[0] = state], but the loop starts at interval 0 and
    overwrites that entry with its first draw. On the demonstration tables
    (one resident, four-state variant, every row moving to the successor
    state) the first trajectory ends in state 3, the second run starts its
    chain from 3, and the first recorded state of the second trajectory is
    0, not 3: [trajectory2[0] ≠ trajectory1[143]]. *)
Example second_run_first_state_differs :
  ∃ self0 self1 g1 self2 g2 trajectory1 trajectory2,
    __init__ Demo.data_ex 1 true = Ok self0 ∧
    run self0 "wd" Demo.g0 = (Ok self1, g1) ∧
    run self1 "wd" g1 = (Ok self2, g2) ∧
    _states self1 = Some trajectory1 ∧
    _states self2 = Some trajectory2 ∧
    trajectory1 !! 143%nat = Some 3 ∧
    last_state self1 = Ok 3 ∧
    trajectory2 !! 0%nat = Some 0 ∧
    trajectory2 !! 0%nat ≠ trajectory1 !! 143%nat.
Proof.
  eexists _, _, _, _, _, _, _.
  split; [reflexivity|].
  split; [vm_compute; reflexivity|].
  split; [vm_compute; reflexivity|].
  split; [reflexivity|]. split; [reflexivity|].
  split; [reflexivity|]. split; [reflexivity|].
  split; [reflexivity|]. discriminate.
Qed.

(** ** Validation of the resident count *)

(** C2, as stated, fails: with [residentCount = 0 < 1] the constructor
    returns an instance, and [run] on it completes when the tables hold the
    key ["wd0"] (the column index [-1] selects the last column). *)
Lemma zero_residents_accepted :
  0 < 1 ∧
  ∃ self, __init__ Demo.data_ex 0 true = Ok self ∧
    ∃ self' g', run self "wd" Demo.g0 = (Ok self', g').
Proof.
  split; [lia|]. eexists. split; [reflexivity|].
  eexists _, _. vm_compute. reflexivity.
Qed.

(** C2, amended: the constructor succeeds for every resident count, which
    it stores unchecked; [run] does not check it either, and, for a
    resident count whose column index [residents - 1] fits a C long, raises
    a lookup error ([KeyError] or [IndexError]) when the resolved tables
    hold no transition table for the day type and the resident count. *)
Theorem resident_count_not_validated data_ex residents four_states :
  (∃ self, __init__ data_ex residents four_states = Ok self ∧
     _residents self = residents ∧ _has_run self = false) ∧
  ∀ self day_of_week g,
    - 2 ^ 63 ≤ _residents self - 1 < 2 ^ 63 →
    _occ_act_trans_data self !! (day_of_week +:+ pretty (_residents self)) = None →
    ∃ e, run self day_of_week g = (Raise e, g) ∧ is_lookup_error e.
Proof.
  split; [by eexists|].
  intros self day_of_week g Hfits Hnone.
  assert (∃ e, lookup_tables self day_of_week = Raise e ∧ is_lookup_error e)
    as (e & He & Hlook).
  { unfold lookup_tables, dict_get, is_lookup_error.
    destruct (_start_state self !! day_of_week) as [start_matrix|]; simpl; [|eauto].
    destruct (column start_matrix (_residents self - 1)) as [start_state|e] eqn:Hcol;
      simpl.
    - rewrite Hnone. simpl. eauto.
    - exists e. split; [done|]. right. by eapply column_raises. }
  exists e. split; [|done].
  unfold run. unfold mbind at 1, M_bind, lift. by rewrite He.
Qed.

Lemma resident_count_not_validated_witness :
  (∃ self, __init__ Demo.data_ex (-2) true = Ok self ∧
     _residents self = -2 ∧ _has_run self = false) ∧
  ∃ self e, __init__ Demo.data_ex 0 false = Ok self ∧
    run self "wd" Demo.g0 = (Raise e, Demo.g0) ∧ is_lookup_error e.
Proof.
  destruct (resident_count_not_validated Demo.data_ex (-2) true) as [Hinit Hrun].
  split; [exact Hinit|].
  eexists _. 
  destruct (Hrun (mkOccupancyModel Demo.data_ex 0 false false None
              (get_occ_start_states_data Demo.data_ex)
              (get_occ_act_trans_data Demo.data_ex) (zeros 144) (zeros 144))
              "wd" Demo.g0) as (e & He & Hlook).
  { cbn [_residents]. lia. }
  { vm_compute. reflexivity. }
  exists e. split; [reflexivity|]. split; [exact He | exact Hlook].
Defined.

(** ** The initial state of a first run *)

(** C3: on the first [run] of an instance the index [s] drawn from the
    start distribution becomes the initial state of the chain as
    [(residentCount+1) * floor(s/7) + (s mod 7)] for the four-state variant
    and as [s] itself for the seven-state variant: the loop over the day is
    entered with that state. *)
Theorem first_run_initial_state self day_of_week g self' g' :
  run self day_of_week g = (Ok self', g') →
  _has_run self = false →
  ∃ start_state act_transition s initialState last trajectory,
    lookup_tables self day_of_week = Ok (start_state, act_transition) ∧
    get_random_interval (mkDPD start_state) g = (Ok s, advance g 1) ∧
    initialState =
      (if _four_states self
       then (_residents self + 1) * (s / 7) + s `mod` 7
       else s) ∧
    run_loop act_transition (spec_num_row_jump self) (seq 0 144) initialState
      (<[0%nat := initialState]> (zeros 144)) (advance g 1)
      = (Ok (last, trajectory), g') ∧
    _states self' = Some trajectory.
Proof.
  intros (start_state & act_transition & s & state0 & last & trajectory
          & Hlook & Hstart & _ & Hstate0 & Hloop & ->)%run_inv Hfirst.
  rewrite Hfirst in Hstate0. injection Hstate0 as <-.
  by exists start_state, act_transition, s, (spec_initial_state self s),
    last, trajectory.
Qed.

Lemma first_run_initial_state_witness :
  ∃ self self' g' start_state act_transition last trajectory,
    __init__ Demo.data_ex 1 true = Ok self ∧
    run self "wd" Demo.g0 = (Ok self', g') ∧
    lookup_tables self "wd" = Ok (start_state, act_transition) ∧
    get_random_interval (mkDPD start_state) Demo.g0 = (Ok 8, advance Demo.g0 1) ∧
    run_loop act_transition 4 (seq 0 144) 3 (<[0%nat := 3]> (zeros 144))
      (advance Demo.g0 1) = (Ok (last, trajectory), g') ∧
    _states self' = Some trajectory.
Proof.
  eexists _, _, _.
  assert (Hrun : run (mkOccupancyModel Demo.data_ex 1 true false None
                        (get_four_state_start_state Demo.data_ex)
                        (get_four_state_trans_data Demo.data_ex)
                        (zeros 144) (zeros 144)) "wd" Demo.g0
                 = (Ok _, _)) by (vm_compute; reflexivity).
  destruct (first_run_initial_state _ _ _ _ _ Hrun eq_refl)
    as (start_state & act_transition & s & initialState & last & trajectory
        & Hlook & Hstart & Hinit & Hloop & Hstates).
  assert (Hs : s = 8).
  { vm_compute in Hlook. injection Hlook as <- _.
    vm_compute in Hstart. by injection Hstart as <-. }
  subst s. vm_compute in Hinit. subst initialState.
  exists start_state, act_transition, last, trajectory.
  split; [reflexivity|]. split; [exact Hrun|].
  exact (conj Hlook (conj Hstart (conj Hloop Hstates))).
Defined.

(** ** The chain over the day *)

(** C4: a [run] that returns has advanced the chain over exactly 144
    intervals. The chain is entered with the initial state: on a first run
    the drawn start index, remapped for the four-state variant; on a later
    run the last state of the previous trajectory. At each [interval] the
    row at position [numRowJump * interval + currentState] of the stacked
    transition table is read (columns 2 onwards), with
    [numRowJump = (residentCount+1)^2] for the four-state variant and 7 for
    the seven-state variant, and [currentState] the initial state at
    interval 0 and the state of the previous interval afterwards; the state
    the sampler draws from that row is recorded as
    [trajectory[interval]]. *)
Theorem run_advances_144_intervals self day_of_week g self' g' :
  run self day_of_week g = (Ok self', g') →
  ∃ start_state act_transition start_ix initialState trajectory,
    lookup_tables self day_of_week = Ok (start_state, act_transition) ∧
    get_random_interval (mkDPD start_state) g = (Ok start_ix, advance g 1) ∧
    (_has_run self = false →
       initialState =
         (if _four_states self
          then (_residents self + 1) * (start_ix / 7) + start_ix `mod` 7
          else start_ix)) ∧
    (_has_run self = true →
       ∃ previous, _states self = Some previous ∧
                   np_index previous (-1) = Ok initialState) ∧
    _states self' = Some trajectory ∧
    length trajectory = 144%nat ∧
    ∀ interval, (interval < 144)%nat → ∃ currentState drawn full,
      current_state initialState trajectory interval = Some currentState ∧
      np_index act_transition
        ((if _four_states self then (_residents self + 1) ^ 2 else 7)
           * Z.of_nat interval + currentState) = Ok full ∧
      get_random_interval (mkDPD (drop 2 full)) (advance g (1 + interval))
        = (Ok drawn, advance g (2 + interval)) ∧
      trajectory !! interval = Some drawn.
Proof.
  intros (start_state & act_transition & s & state0 & trajectory
          & Hlook & Hstart & _ & Hstate0 & -> & Hlen & _ & Hstep)%run_chain.
  exists start_state, act_transition, s, state0, trajectory.
  split; [done|]. split; [done|]. split; [|split].
  - intros Hfirst. rewrite Hfirst in Hstate0. by injection Hstate0 as <-.
  - intros Hlater. rewrite Hlater in Hstate0. unfold last_state in Hstate0.
    destruct (_states self) as [previous|]; [|discriminate]. eauto.
  - split; [done|]. split; [done|].
    intros interval Hi.
    destruct (Hstep interval Hi) as (current & drawn & row & Hc & Hr & Hs & Ht & _).
    apply row_from_2_ok in Hr as (full & Hfull & ->).
    by exists current, drawn, full.
Qed.

Lemma run_advances_144_intervals_witness :
  ∃ start_state act_transition start_ix initialState trajectory,
    lookup_tables DemoRuns.four1 "wd" = Ok (start_state, act_transition) ∧
    get_random_interval (mkDPD start_state) (advance Demo.g0 145)
      = (Ok start_ix, advance (advance Demo.g0 145) 1) ∧
    (_has_run DemoRuns.four1 = false →
       initialState =
         (if _four_states DemoRuns.four1
          then (_residents DemoRuns.four1 + 1) * (start_ix / 7) + start_ix `mod` 7
          else start_ix)) ∧
    (_has_run DemoRuns.four1 = true →
       ∃ previous, _states DemoRuns.four1 = Some previous ∧
                   np_index previous (-1) = Ok initialState) ∧
    _states DemoRuns.four2 = Some trajectory ∧
    length trajectory = 144%nat ∧
    ∀ interval, (interval < 144)%nat → ∃ currentState drawn full,
      current_state initialState trajectory interval = Some currentState ∧
      np_index act_transition
        ((if _four_states DemoRuns.four1
          then (_residents DemoRuns.four1 + 1) ^ 2 else 7)
           * Z.of_nat interval + currentState) = Ok full ∧
      get_random_interval (mkDPD (drop 2 full))
        (advance (advance Demo.g0 145) (1 + interval))
        = (Ok drawn, advance (advance Demo.g0 145) (2 + interval)) ∧
      trajectory !! interval = Some drawn.
Proof.
  exact (run_advances_144_intervals _ _ _ _ _ demo_four_second_run).
Defined.

(** ** Decoding the trajectory *)

Section Decoding.

Variable self : OccupancyModel.
Variable states : list Z.
Hypothesis four_states : _four_states self = true.

(** The two series hold, entry by entry, what numpy computes from the
    raw state. *)
Lemma occ_activity_lookup t rawState :
  states !! t = Some rawState →
  occ_activity (save_results self states) !! t
    = Some (Z.min (np_floor_div rawState (_residents self + 1))
                  (np_fmod rawState (_residents self + 1))).
Proof.
  intros Ht. simpl. rewrite four_states.
  apply lookup_zip_with_Some. do 2 eexists.
  rewrite !list_lookup_fmap, Ht. done.
Qed.

Lemma occ_no_activity_lookup t rawState :
  states !! t = Some rawState →
  occ_no_activity (save_results self states) !! t
    = Some (Z.max (np_floor_div rawState (_residents self + 1)
                   - np_fmod rawState (_residents self + 1)) 0).
Proof.
  intros Ht. simpl. rewrite four_states.
  rewrite list_lookup_fmap.
  erewrite (proj2 (lookup_zip_with_Some _ _ _ _ _)); [done|].
  do 2 eexists. rewrite !list_lookup_fmap, Ht. done.
Qed.

Lemma decoded_lengths :
  length (occ_activity (save_results self states)) = length states ∧
  length (occ_no_activity (save_results self states)) = length states.
Proof.
  simpl. rewrite four_states.
  rewrite length_fmap, !length_zip_with, !length_fmap. lia.
Qed.

End Decoding.

(** For a positive divisor and a state that is not negative, numpy's floor
    of the quotient and its [fmod] are the quotient and the remainder. *)
Lemma np_decode_nonneg rawState d :
  0 < d → 0 ≤ rawState →
  np_floor_div rawState d = rawState / d ∧ np_fmod rawState d = rawState `mod` d.
Proof.
  intros Hd Hraw. unfold np_floor_div, np_fmod.
  destruct (Z.eqb_spec d 0); [lia|].
  by rewrite Z.rem_mod_nonneg by lia.
Qed.

(** C5: after a [run] of the four-state variant (with a resident count that
    is not negative) every entry [rawState] of the trajectory is decoded as
    [homeCount = floor(rawState / (residentCount+1))] and
    [activeCount = rawState mod (residentCount+1)], and the stored series
    hold [occActivity[t] = min(homeCount, activeCount)] and
    [occNoActivity[t] = max(homeCount - activeCount, 0)]; after a [run] of
    the seven-state variant [occActivity] is the trajectory itself. *)
Theorem run_decodes_trajectory self day_of_week g self' g' :
  run self day_of_week g = (Ok self', g') →
  ∃ trajectory,
    _states self' = Some trajectory ∧ length trajectory = 144%nat ∧
    (_four_states self = true → 0 ≤ _residents self →
       length (occ_activity self') = 144%nat ∧
       length (occ_no_activity self') = 144%nat ∧
       ∀ t rawState, trajectory !! t = Some rawState →
         let homeCount := rawState / (_residents self + 1) in
         let activeCount := rawState `mod` (_residents self + 1) in
         occ_activity self' !! t = Some (Z.min homeCount activeCount) ∧
         occ_no_activity self' !! t = Some (Z.max (homeCount - activeCount) 0)) ∧
    (_four_states self = false → occ_activity self' = trajectory).
Proof.
  intros Hrun.
  destruct (run_chain _ _ _ _ _ Hrun)
    as (ss & tbl & s & state0 & trajectory & _ & _ & _ & _ & Hself & Hlen & _).
  exists trajectory.
  assert (Hstates : _states self' = Some trajectory) by by subst self'.
  destruct (run_chain_nonneg _ _ _ _ _ _ Hrun Hstates) as [_ Hnonneg].
  split; [done|]. split; [done|]. subst self'. split.
  - intros Hfour Hres.
    destruct (decoded_lengths self trajectory Hfour) as [-> ->].
    split; [done|]. split; [done|].
    intros t rawState Ht homeCount activeCount.
    pose proof (proj1 (Forall_lookup _ _) Hnonneg t rawState Ht) as Hraw.
    destruct (np_decode_nonneg rawState (_residents self + 1)) as [Hhome Hactive];
      [lia|done|].
    rewrite (occ_activity_lookup self trajectory Hfour t rawState Ht).
    rewrite (occ_no_activity_lookup self trajectory Hfour t rawState Ht).
    by rewrite Hhome, Hactive.
  - intros Hseven. simpl. by rewrite Hseven.
Qed.

Lemma run_decodes_trajectory_witness :
  ∃ self' g' trajectory,
    run (mkOccupancyModel Demo.data_ex 1 true false None
           (get_four_state_start_state Demo.data_ex)
           (get_four_state_trans_data Demo.data_ex)
           (zeros 144) (zeros 144)) "wd" Demo.g0 = (Ok self', g') ∧
    _states self' = Some trajectory ∧
    trajectory !! 2%nat = Some 2 ∧
    occ_activity self' !! 2%nat = Some (Z.min (2 / 2) (2 `mod` 2)) ∧
    occ_no_activity self' !! 2%nat = Some (Z.max (2 / 2 - 2 `mod` 2) 0).
Proof.
  eexists _, _.
  assert (Hrun : run (mkOccupancyModel Demo.data_ex 1 true false None
                        (get_four_state_start_state Demo.data_ex)
                        (get_four_state_trans_data Demo.data_ex)
                        (zeros 144) (zeros 144)) "wd" Demo.g0
                 = (Ok _, _)) by (vm_compute; reflexivity).
  destruct (run_decodes_trajectory _ _ _ _ _ Hrun)
    as (trajectory & Hstates & Hlen & Hfour & _).
  destruct (Hfour eq_refl ltac:(simpl; lia)) as (_ & _ & Hdecode).
  exists trajectory. split; [exact Hrun|]. split; [exact Hstates|].
  injection Hstates as <-.
  split; [reflexivity|]. exact (Hdecode 2%nat 2 eq_refl).
Defined.

(** C6: after a four-state [run] (with a resident count that is not
    negative) whose raw chain states all lie in [0, (residentCount+1)^2),
    every interval [t] has [occActivity[t] ≤ residentCount],
    [occNoActivity[t] ≤ residentCount] and
    [occActivity[t] + occNoActivity[t] ≤ residentCount]. *)
Theorem decoding_invariant self day_of_week g self' g' trajectory :
  run self day_of_week g = (Ok self', g') →
  _four_states self = true →
  0 ≤ _residents self →
  _states self' = Some trajectory →
  Forall (λ rawState, 0 ≤ rawState < (_residents self + 1) ^ 2) trajectory →
  ∀ t, (t < 144)%nat → ∃ active inactive,
    occ_activity self' !! t = Some active ∧
    occ_no_activity self' !! t = Some inactive ∧
    active ≤ _residents self ∧
    inactive ≤ _residents self ∧
    active + inactive ≤ _residents self.
Proof.
  intros Hrun Hfour Hres Hstates Hrange t Ht.
  destruct (run_chain _ _ _ _ _ Hrun)
    as (ss & tbl & s & state0 & tr & _ & _ & _ & _ & Hself & Hlen & _).
  subst self'. injection Hstates as ->.
  destruct (lookup_lt_is_Some_2 trajectory t) as [rawState Hraw]; [lia|].
  pose proof (proj1 (Forall_lookup _ _) Hrange t rawState Hraw) as [Hlo Hhi].
  destruct (np_decode_nonneg rawState (_residents self + 1)) as [Hhome Hactive];
    [lia|done|].
  exists (Z.min (rawState / (_residents self + 1))
                (rawState `mod` (_residents self + 1))),
         (Z.max (rawState / (_residents self + 1)
                 - rawState `mod` (_residents self + 1)) 0).
  rewrite (occ_activity_lookup self trajectory Hfour t rawState Hraw).
  rewrite (occ_no_activity_lookup self trajectory Hfour t rawState Hraw).
  rewrite Hhome, Hactive.
  split; [done|]. split; [done|].
  assert (Hh : 0 ≤ rawState / (_residents self + 1) ≤ _residents self).
  { split; [apply Z.div_pos; lia|].
    apply Z.lt_succ_r, Z.div_lt_upper_bound; lia. }
  pose proof (Z.mod_pos_bound rawState (_residents self + 1) ltac:(lia)).
  lia.
Qed.

Lemma decoding_invariant_witness :
  ∃ self' g' trajectory,
    run (mkOccupancyModel Demo.data_ex 1 true false None
           (get_four_state_start_state Demo.data_ex)
           (get_four_state_trans_data Demo.data_ex)
           (zeros 144) (zeros 144)) "wd" Demo.g0 = (Ok self', g') ∧
    _states self' = Some trajectory ∧
    Forall (λ rawState, 0 ≤ rawState < (1 + 1) ^ 2) trajectory ∧
    ∀ t, (t < 144)%nat → ∃ active inactive,
      occ_activity self' !! t = Some active ∧
      occ_no_activity self' !! t = Some inactive ∧
      active ≤ 1 ∧ inactive ≤ 1 ∧ active + inactive ≤ 1.
Proof.
  eexists _, _, _.
  assert (Hrun : run (mkOccupancyModel Demo.data_ex 1 true false None
                        (get_four_state_start_state Demo.data_ex)
                        (get_four_state_trans_data Demo.data_ex)
                        (zeros 144) (zeros 144)) "wd" Demo.g0
                 = (Ok _, _)) by (vm_compute; reflexivity).
  split; [exact Hrun|]. split; [reflexivity|].
  match goal with |- Forall ?P ?l ∧ _ =>
    assert (Hrange : Forall P l)
      by (apply (bool_decide_unpack _); vm_compute; exact I)
  end.
  split; [exact Hrange|].
  exact (decoding_invariant _ _ _ _ _ _ Hrun eq_refl ltac:(simpl; lia)
           eq_refl Hrange).
Defined.

(** C9: after a four-state [run] (with [residentCount + 1 ≠ 0]) the two
    series add up to the decoded home count at every interval:
    [occActivity[t] + occNoActivity[t]
     = floor(trajectory[t] / (residentCount+1))]. *)
Theorem activity_sum_is_home_count self day_of_week g self' g' :
  run self day_of_week g = (Ok self', g') →
  _four_states self = true →
  _residents self + 1 ≠ 0 →
  ∃ trajectory, _states self' = Some trajectory ∧
    ∀ t, (t < 144)%nat → ∃ rawState active inactive,
      trajectory !! t = Some rawState ∧
      occ_activity self' !! t = Some active ∧
      occ_no_activity self' !! t = Some inactive ∧
      active + inactive = rawState / (_residents self + 1).
Proof.
  intros Hrun Hfour Hres.
  destruct (run_chain _ _ _ _ _ Hrun)
    as (ss & tbl & s & state0 & trajectory & _ & _ & _ & _ & Hself & Hlen & _).
  subst self'. exists trajectory. split; [done|].
  intros t Ht.
  destruct (lookup_lt_is_Some_2 trajectory t) as [rawState Hraw]; [lia|].
  exists rawState. do 2 eexists. split; [done|].
  rewrite (occ_activity_lookup self trajectory Hfour t rawState Hraw).
  rewrite (occ_no_activity_lookup self trajectory Hfour t rawState Hraw).
  split; [done|]. split; [done|].
  unfold np_floor_div. destruct (Z.eqb_spec (_residents self + 1) 0); [done|].
  lia.
Qed.

Lemma activity_sum_is_home_count_witness :
  ∃ self' g' trajectory,
    run (mkOccupancyModel Demo.data_ex 1 true false None
           (get_four_state_start_state Demo.data_ex)
           (get_four_state_trans_data Demo.data_ex)
           (zeros 144) (zeros 144)) "wd" Demo.g0 = (Ok self', g') ∧
    _states self' = Some trajectory ∧
    ∀ t, (t < 144)%nat → ∃ rawState active inactive,
      trajectory !! t = Some rawState ∧
      occ_activity self' !! t = Some active ∧
      occ_no_activity self' !! t = Some inactive ∧
      active + inactive = rawState / (1 + 1).
Proof.
  eexists _, _.
  assert (Hrun : run (mkOccupancyModel Demo.data_ex 1 true false None
                        (get_four_state_start_state Demo.data_ex)
                        (get_four_state_trans_data Demo.data_ex)
                        (zeros 144) (zeros 144)) "wd" Demo.g0
                 = (Ok _, _)) by (vm_compute; reflexivity).
  destruct (activity_sum_is_home_count _ _ _ _ _ Hrun eq_refl ltac:(simpl; lia))
    as (trajectory & Hstates & Hsum).
  exists trajectory. split; [exact Hrun|]. exact (conj Hstates Hsum).
Defined.

(** ** Determinism *)














(** ** The accessors *)

(** C8: an instance is constructed with the has-run flag unset; while it is
    unset both [get_occ_activity] and [get_occ_no_activity] raise the
    state error; after a [run] of a seven-state instance
    [get_occ_no_activity] raises the configuration-mismatch error, and on a
    seven-state instance it raises in every state; [get_residents] always
    returns the configured resident count. *)
Theorem accessor_preconditions :
  (∀ data_ex residents four_states self,
     __init__ data_ex residents four_states = Ok self → _has_run self = false) ∧
  (∀ self, _has_run self = false →
     ∃ e1 e2, get_occ_activity self = Raise e1 ∧ is_state_error e1 ∧
              get_occ_no_activity self = Raise e2 ∧ is_state_error e2) ∧
  (∀ self day_of_week g self' g',
     run self day_of_week g = (Ok self', g') → _four_states self = false →
     ∃ e, get_occ_no_activity self' = Raise e ∧ is_configuration_mismatch e) ∧
  (∀ self, _four_states self = false → ∃ e, get_occ_no_activity self = Raise e) ∧
  (∀ self, get_residents self = Ok (_residents self)).
Proof.
  split; [by intros ???? [= <-]|].
  split.
  { intros self Hnot. exists (ValueError msg_run_first), (ValueError msg_run_first).
    unfold get_occ_activity, get_occ_no_activity. by rewrite Hnot. }
  split.
  { intros self day_of_week g self' g' Hrun Hseven.
    apply run_inv in Hrun as (? & ? & ? & ? & ? & trajectory & _ & _ & _ & _ & _ & ->).
    exists (ValueError msg_four_states_only).
    unfold get_occ_no_activity. simpl. by rewrite Hseven. }
  split; [|done].
  intros self Hseven. unfold get_occ_no_activity. rewrite Hseven.
  destruct (_has_run self); simpl; eauto.
Qed.

Lemma accessor_preconditions_witness :
  ∃ self self' g',
    __init__ Demo.data_ex 1 false = Ok self ∧
    get_occ_activity self = Raise (ValueError msg_run_first) ∧
    get_occ_no_activity self = Raise (ValueError msg_run_first) ∧
    run self "wd" Demo.g0 = (Ok self', g') ∧
    (∃ e, get_occ_no_activity self' = Raise e ∧ is_configuration_mismatch e) ∧
    get_residents self' = Ok 1.
Proof.
  destruct accessor_preconditions as (Hinit & Hbefore & Hafter & _ & Hres).
  eexists _, _, _.
  split; [reflexivity|]. split; [reflexivity|]. split; [reflexivity|].
  assert (Hrun : run (mkOccupancyModel Demo.data_ex 1 false false None
                        (get_occ_start_states_data Demo.data_ex)
                        (get_occ_act_trans_data Demo.data_ex)
                        (zeros 144) (zeros 144)) "wd" Demo.g0
                 = (Ok _, _)) by (vm_compute; reflexivity).
  split; [exact Hrun|].
  split; [exact (Hafter _ _ _ _ _ Hrun eq_refl) | apply Hres].
Defined.

(** ** Draws from the random source *)

(** C10: every [run] that returns, the first as well as a later one, has
    drawn one index from the start distribution; on a later run that index
    is dropped and the chain is entered with the last state of the previous
    trajectory. The loop then draws once per interval, so the run leaves
    the random source exactly 145 variates further: one start draw and 144
    transition draws. *)
Theorem run_consumes_145_draws self day_of_week g self' g' :
  run self day_of_week g = (Ok self', g') →
  ∃ start_state act_transition start_ix initialState last trajectory,
    lookup_tables self day_of_week = Ok (start_state, act_transition) ∧
    get_random_interval (mkDPD start_state) g = (Ok start_ix, advance g 1) ∧
    (_has_run self = true → last_state self = Ok initialState) ∧
    run_loop act_transition (spec_num_row_jump self) (seq 0 144) initialState
      (<[0%nat := initialState]> (zeros 144)) (advance g 1)
      = (Ok (last, trajectory), advance g 145) ∧
    g' = advance g 145 ∧
    stream g' = stream g ∧ pos g' = (pos g + 145)%nat.
Proof.
  intros Hrun.
  destruct (run_chain _ _ _ _ _ Hrun)
    as (_ & _ & _ & _ & _ & _ & _ & _ & _ & _ & _ & Hg' & _).
  apply run_inv in Hrun
    as (start_state & act_transition & start_ix & state0 & last & trajectory
        & Hlook & Hstart & _ & Hstate0 & Hloop & _).
  exists start_state, act_transition, start_ix, state0, last, trajectory.
  subst g'. repeat (split; [done|]). split; [|done].
  intros Hhas. by rewrite Hhas in Hstate0.
Qed.

Lemma run_consumes_145_draws_witness :
  ∃ self0 self1 g1 self2 g2,
    __init__ Demo.data_ex 1 true = Ok self0 ∧
    run self0 "wd" Demo.g0 = (Ok self1, g1) ∧
    _has_run self1 = true ∧
    run self1 "wd" g1 = (Ok self2, g2) ∧
    pos g1 = 145%nat ∧
    g2 = advance g1 145 ∧ pos g2 = (pos g1 + 145)%nat.
Proof.
  eexists _, _, _, _, _.
  split; [reflexivity|].
  split; [vm_compute; reflexivity|].
  split; [reflexivity|].
  match goal with |- run ?s ?d ?g = _ ∧ _ =>
    assert (Hrun : run s d g = (Ok _, _)) by (vm_compute; reflexivity)
  end.
  split; [exact Hrun|]. split; [reflexivity|].
  destruct (run_consumes_145_draws _ _ _ _ _ Hrun)
    as (_ & _ & _ & _ & _ & _ & _ & _ & _ & _ & Hg & _ & Hpos).
  split; [exact Hg | exact Hpos].
Defined.

(** * Further properties of the model *)

(** ** What an instance keeps over its life *)

(** The configuration is fixed by the constructor: whatever runs an
    instance has gone through, it still holds the data exchange object, the
    resident count and the variant it was constructed with, and the two
    tables the constructor picked for that variant. *)
Theorem reachable_keeps_configuration data_ex residents four_states self :
  reachable data_ex residents four_states self →
  _data_ex self = data_ex ∧
  _residents self = residents ∧
  _four_states self = four_states ∧
  _start_state self =
    (if four_states then get_four_state_start_state data_ex
     else get_occ_start_states_data data_ex) ∧
  _occ_act_trans_data self =
    (if four_states then get_four_state_trans_data data_ex
     else get_occ_act_trans_data data_ex).
Proof.
  induction 1 as [self Hinit|self day_of_week g self' g' _ IH Hrun].
  - by injection Hinit as <-.
  - apply run_inv in Hrun as (? & ? & ? & ? & ? & trajectory & _ & _ & _ & _ & _ & ->).
    exact IH.
Qed.

Lemma reachable_keeps_configuration_witness :
  reachable Demo.data_ex 1 false DemoRuns.seven1 ∧
  _data_ex DemoRuns.seven1 = Demo.data_ex ∧
  _residents DemoRuns.seven1 = 1 ∧
  _four_states DemoRuns.seven1 = false ∧
  _start_state DemoRuns.seven1 = get_occ_start_states_data Demo.data_ex ∧
  _occ_act_trans_data DemoRuns.seven1 = get_occ_act_trans_data Demo.data_ex.
Proof.
  split; [exact demo_seven_reachable|].
  exact (reachable_keeps_configuration _ _ _ _ demo_seven_reachable).
Defined.

(** The shape of an instance is an invariant. Both series always have 144
    entries, and a seven-state instance never writes [occ_no_activity]: it
    stays all zero. The has-run flag is unset exactly on the instance as
    constructed, which holds no trajectory. Every run that returns leaves
    the flag set and a trajectory of 144 entries, none of them negative,
    whose entry 143 is [self._states[-1]]: taking over the last state on
    the next run cannot fail. *)
Theorem reachable_shape data_ex residents four_states self :
  reachable data_ex residents four_states self →
  length (occ_activity self) = 144%nat ∧
  length (occ_no_activity self) = 144%nat ∧
  (four_states = false → occ_no_activity self = zeros 144) ∧
  (_has_run self = false →
     __init__ data_ex residents four_states = Ok self ∧ _states self = None) ∧
  (_has_run self = true →
     ∃ trajectory previous,
       _states self = Some trajectory ∧ length trajectory = 144%nat ∧
       Forall (λ rawState, 0 ≤ rawState) trajectory ∧
       trajectory !! 143%nat = Some previous ∧ last_state self = Ok previous) ∧
  (∀ day_of_week g self' g',
     run self day_of_week g = (Ok self', g') →
     _has_run self' = true ∧
     ∃ trajectory previous,
       _states self' = Some trajectory ∧ length trajectory = 144%nat ∧
       Forall (λ rawState, 0 ≤ rawState) trajectory ∧
       trajectory !! 143%nat = Some previous ∧ last_state self' = Ok previous).
Proof.
  intros Hreach.
  assert (Hafter : ∀ self0 day_of_week g self' g',
    run self0 day_of_week g = (Ok self', g') →
    _has_run self' = true ∧
    ∃ trajectory previous,
      _states self' = Some trajectory ∧ length trajectory = 144%nat ∧
      Forall (λ rawState, 0 ≤ rawState) trajectory ∧
      trajectory !! 143%nat = Some previous ∧ last_state self' = Ok previous).
  { intros self0 day_of_week g self' g' Hrun.
    destruct (run_chain _ _ _ _ _ Hrun)
      as (ss & tbl & s & state0 & trajectory & _ & _ & _ & _ & Hself & Hlen & _).
    assert (Hstates : _states self' = Some trajectory) by by subst self'.
    destruct (run_chain_nonneg _ _ _ _ _ _ Hrun Hstates) as [_ Hnonneg].
    destruct (lookup_lt_is_Some_2 trajectory 143) as [previous Hprev]; [lia|].
    split; [by subst self'|].
    exists trajectory, previous. repeat (split; [done|]).
    unfold last_state. rewrite Hstates. apply np_index_last. by rewrite Hlen. }
  assert (Hshape :
    length (occ_activity self) = 144%nat ∧
    length (occ_no_activity self) = 144%nat ∧
    (four_states = false → occ_no_activity self = zeros 144) ∧
    (_has_run self = false →
       __init__ data_ex residents four_states = Ok self ∧ _states self = None) ∧
    (_has_run self = true →
       ∃ trajectory previous,
         _states self = Some trajectory ∧ length trajectory = 144%nat ∧
         Forall (λ rawState, 0 ≤ rawState) trajectory ∧
         trajectory !! 143%nat = Some previous ∧ last_state self = Ok previous)).
  { induction Hreach as [self Hinit|self day_of_week g self' g' Hreach IH Hrun].
    - pose proof Hinit as Hinit'. injection Hinit as <-.
      cbn [occ_activity occ_no_activity _has_run _states].
      unfold zeros. rewrite length_replicate.
      repeat (split; [done|]). intros [=].
    - destruct IH as (Hact & Hno & Hzero & _).
      pose proof (reachable_keeps_configuration _ _ _ _ Hreach)
        as (_ & _ & Hfour & _).
      destruct (Hafter _ _ _ _ _ Hrun) as [Hflag Htraj].
      destruct (run_chain _ _ _ _ _ Hrun)
        as (ss & tbl & s & state0 & trajectory & _ & _ & _ & _ & Hself & Hlen & _).
      split; [|split; [|split; [|split]]].
      + subst self'. destruct (_four_states self) eqn:Hf.
        * destruct (decoded_lengths self trajectory Hf) as [-> _]. done.
        * cbn [occ_activity save_results]. by rewrite Hf.
      + subst self'. destruct (_four_states self) eqn:Hf.
        * destruct (decoded_lengths self trajectory Hf) as [_ ->]. done.
        * cbn [occ_no_activity save_results]. by rewrite Hf.
      + intros ->. subst self'. cbn [occ_no_activity save_results].
        rewrite Hfour. by apply Hzero.
      + rewrite Hflag. intros [=].
      + intros _. exact Htraj. }
  destruct Hshape as (H1 & H2 & H3 & H4 & H5).
  repeat (split; [done|]). intros day_of_week g self' g'. apply Hafter.
Qed.

Lemma reachable_shape_witness :
  reachable Demo.data_ex 1 false DemoRuns.seven1 ∧
  length (occ_activity DemoRuns.seven1) = 144%nat ∧
  length (occ_no_activity DemoRuns.seven1) = 144%nat ∧
  (false = false → occ_no_activity DemoRuns.seven1 = zeros 144) ∧
  (_has_run DemoRuns.seven1 = false →
     __init__ Demo.data_ex 1 false = Ok DemoRuns.seven1 ∧
     _states DemoRuns.seven1 = None) ∧
  (_has_run DemoRuns.seven1 = true →
     ∃ trajectory previous,
       _states DemoRuns.seven1 = Some trajectory ∧ length trajectory = 144%nat ∧
       Forall (λ rawState, 0 ≤ rawState) trajectory ∧
       trajectory !! 143%nat = Some previous ∧
       last_state DemoRuns.seven1 = Ok previous) ∧
  (∀ day_of_week g self' g',
     run DemoRuns.seven1 day_of_week g = (Ok self', g') →
     _has_run self' = true ∧
     ∃ trajectory previous,
       _states self' = Some trajectory ∧ length trajectory = 144%nat ∧
       Forall (λ rawState, 0 ≤ rawState) trajectory ∧
       trajectory !! 143%nat = Some previous ∧ last_state self' = Ok previous).
Proof.
  split; [exact demo_seven_reachable|].
  exact (reachable_shape _ _ _ _ demo_seven_reachable).
Defined.

(** After a run that returned, the outputs can be read: [get_occ_activity]
    returns a series of 144 entries, which for a seven-state instance is
    the trajectory itself; for a four-state instance [get_occ_no_activity]
    returns a series of 144 entries as well. *)
Theorem accessors_after_run self day_of_week g self' g' :
  run self day_of_week g = (Ok self', g') →
  ∃ activity,
    get_occ_activity self' = Ok activity ∧ length activity = 144%nat ∧
    (_four_states self = false → _states self' = Some activity) ∧
    (_four_states self = true →
       ∃ inactivity, get_occ_no_activity self' = Ok inactivity ∧
                     length inactivity = 144%nat).
Proof.
  intros Hrun.
  destruct (run_chain _ _ _ _ _ Hrun)
    as (ss & tbl & s & state0 & trajectory & _ & _ & _ & _ & -> & Hlen & _).
  exists (occ_activity (save_results self trajectory)).
  split; [done|].
  destruct (_four_states self) eqn:Hf.
  - destruct (decoded_lengths self trajectory Hf) as [Ha Hn].
    split; [by rewrite Ha|]. split; [done|]. intros _.
    exists (occ_no_activity (save_results self trajectory)).
    split; [|by rewrite Hn].
    unfold get_occ_no_activity. cbn [_has_run _four_states save_results negb].
    by rewrite Hf.
  - cbn [occ_activity _states save_results]. rewrite Hf. done.
Qed.

Lemma accessors_after_run_witness :
  ∃ activity,
    get_occ_activity DemoRuns.four1 = Ok activity ∧ length activity = 144%nat ∧
    (_four_states DemoRuns.four0 = false → _states DemoRuns.four1 = Some activity) ∧
    (_four_states DemoRuns.four0 = true →
       ∃ inactivity, get_occ_no_activity DemoRuns.four1 = Ok inactivity ∧
                     length inactivity = 144%nat).
Proof. exact (accessors_after_run _ _ _ _ _ demo_four_first_run). Defined.

(** ** Lookups that fail *)

(** A day type the start table does not know makes [run] raise [KeyError]
    at once, on a first run and on any later one: nothing is drawn from the
    random source. *)
Theorem run_unknown_day self day_of_week g :
  _start_state self !! day_of_week = None →
  run self day_of_week g = (Raise KeyError, g).
Proof.
  intros Hnone.
  assert (Hlook : lookup_tables self day_of_week = Raise KeyError).
  { unfold lookup_tables, dict_get. by rewrite Hnone. }
  unfold run. by rewrite Hlook.
Qed.

Lemma run_unknown_day_witness :
  _start_state DemoRuns.four1 !! "we" = None ∧
  run DemoRuns.four1 "we" Demo.g0 = (Raise KeyError, Demo.g0).
Proof.
  assert (Hnone : _start_state DemoRuns.four1 !! "we" = None)
    by (vm_compute; reflexivity).
  exact (conj Hnone (run_unknown_day DemoRuns.four1 "we" Demo.g0 Hnone)).
Defined.

(** A resident count for which the start table has no column makes [run]
    raise [IndexError] before anything is drawn: the column [residents - 1]
    (an index that fits a C long) must lie within the width of the table,
    counted from either end. *)
Theorem run_resident_column_out_of_range self day_of_week g table :
  _start_state self !! day_of_week = Some table →
  - 2 ^ 63 ≤ _residents self - 1 < 2 ^ 63 →
  ¬ (- Z.of_nat (width table) ≤ _residents self - 1 < Z.of_nat (width table)) →
  run self day_of_week g = (Raise IndexError, g).
Proof.
  intros Hsome Hfits Hout.
  assert (Hlook : lookup_tables self day_of_week = Raise IndexError).
  { unfold lookup_tables, dict_get, column. rewrite Hsome.
    cbn [mbind result_bind].
    by rewrite (check_index_out_of_range _ _ Hfits Hout). }
  unfold run. by rewrite Hlook.
Qed.

Lemma run_resident_column_out_of_range_witness :
  ∃ table,
    _start_state DemoRuns.three0 !! "wd" = Some table ∧
    - 2 ^ 63 ≤ _residents DemoRuns.three0 - 1 < 2 ^ 63 ∧
    ¬ (- Z.of_nat (width table) ≤ _residents DemoRuns.three0 - 1
         < Z.of_nat (width table)) ∧
    run DemoRuns.three0 "wd" Demo.g0 = (Raise IndexError, Demo.g0).
Proof.
  exists (Demo.start_table 14 8 0).
  assert (Hsome : _start_state DemoRuns.three0 !! "wd"
                  = Some (Demo.start_table 14 8 0))
    by (vm_compute; reflexivity).
  assert (Hfits : - 2 ^ 63 ≤ _residents DemoRuns.three0 - 1 < 2 ^ 63)
    by (cbn [_residents DemoRuns.three0]; lia).
  assert (Hout : ¬ (- Z.of_nat (width (Demo.start_table 14 8 0))
                      ≤ _residents DemoRuns.three0 - 1
                      < Z.of_nat (width (Demo.start_table 14 8 0))))
    by (cbn [_residents DemoRuns.three0 width Demo.start_table]; lia).
  exact (conj Hsome (conj Hfits (conj Hout
           (run_resident_column_out_of_range _ "wd" Demo.g0 _ Hsome Hfits Hout)))).
Defined.

(** ** From one run to the next *)

(** On consecutive runs of one instance the chain goes on where it stopped:
    the first recorded state of the second trajectory is the state drawn
    from the row that the last state of the first trajectory selects in the
    block of interval 0. Whatever was drawn from the random source between
    the two runs does not matter. *)
Theorem consecutive_runs_chain self day1 g self1 g1 day2 g1' self2 g2 :
  run self day1 g = (Ok self1, g1) →
  run self1 day2 g1' = (Ok self2, g2) →
  ∃ trajectory1 trajectory2 previous start_state act_transition row first,
    _states self1 = Some trajectory1 ∧
    _states self2 = Some trajectory2 ∧
    trajectory1 !! 143%nat = Some previous ∧
    lookup_tables self1 day2 = Ok (start_state, act_transition) ∧
    row_from_2 act_transition (spec_num_row_jump self1 * 0 + previous) = Ok row ∧
    get_random_interval (mkDPD row) (advance g1' 1) = (Ok first, advance g1' 2) ∧
    trajectory2 !! 0%nat = Some first.
Proof.
  intros Hrun1 Hrun2.
  destruct (run_chain _ _ _ _ _ Hrun1)
    as (_ & _ & _ & _ & trajectory1 & _ & _ & _ & _ & Hself1 & Hlen1 & _).
  destruct (lookup_lt_is_Some_2 trajectory1 143) as [previous Hprev]; [lia|].
  assert (Hlast : last_state self1 = Ok previous).
  { subst self1. unfold last_state. cbn [_states save_results].
    apply np_index_last. by rewrite Hlen1. }
  destruct (run_chain _ _ _ _ _ Hrun2)
    as (start_state & act_transition & s & state0 & trajectory2
        & Hlook & _ & _ & Hstate0 & Hself2 & _ & _ & Hstep).
  replace (_has_run self1) with true in Hstate0 by by subst self1.
  rewrite Hlast in Hstate0. injection Hstate0 as <-.
  destruct (Hstep 0%nat ltac:(lia))
    as (current & first & row & [= <-] & Hrow & Hdraw & Hfirst & _).
  exists trajectory1, trajectory2, previous, start_state, act_transition, row, first.
  split; [by subst self1|]. split; [by subst self2|]. done.
Qed.

Lemma consecutive_runs_chain_witness :
  ∃ trajectory1 trajectory2 previous start_state act_transition row first,
    _states DemoRuns.four1 = Some trajectory1 ∧
    _states DemoRuns.four2 = Some trajectory2 ∧
    trajectory1 !! 143%nat = Some previous ∧
    lookup_tables DemoRuns.four1 "wd" = Ok (start_state, act_transition) ∧
    row_from_2 act_transition (spec_num_row_jump DemoRuns.four1 * 0 + previous)
      = Ok row ∧
    get_random_interval (mkDPD row) (advance (advance Demo.g0 145) 1)
      = (Ok first, advance (advance Demo.g0 145) 2) ∧
    trajectory2 !! 0%nat = Some first.
Proof.
  exact (consecutive_runs_chain _ _ _ _ _ _ _ _ _
           demo_four_first_run demo_four_second_run).
Defined.

(** A later run does not depend on the start table beyond its draw being
    possible: two instances that have run, hold the same trajectory and
    agree on resident count, variant and transition tables produce the same
    trajectory from the same random source, whatever their start tables
    are. *)
Theorem later_run_ignores_start_table a b day_of_week g a' ga b' gb :
  _has_run a = true → _has_run b = true →
  _states a = _states b →
  _residents a = _residents b →
  _four_states a = _four_states b →
  _occ_act_trans_data a = _occ_act_trans_data b →
  run a day_of_week g = (Ok a', ga) →
  run b day_of_week g = (Ok b', gb) →
  _states a' = _states b' ∧ occ_activity a' = occ_activity b' ∧ ga = gb.
Proof.
  intros Ha Hb Hstates Hres Hfour Htrans
    (ssa & tbla & sa & state0a & lasta & ta
     & Hlooka & _ & _ & Hstate0a & Hloopa & ->)%run_inv
    (ssb & tblb & sb & state0b & lastb & tb
     & Hlookb & _ & _ & Hstate0b & Hloopb & ->)%run_inv.
  rewrite Ha in Hstate0a. rewrite Hb in Hstate0b.
  unfold last_state in Hstate0a, Hstate0b. rewrite Hstates in Hstate0a.
  assert (state0a = state0b) as -> by congruence.
  assert (tbla = tblb) as ->.
  { unfold lookup_tables in Hlooka, Hlookb.
    apply result_bind_inv in Hlooka as (? & _ & (? & _ & (ta' & Hta & [= _ <-])%result_bind_inv)%result_bind_inv).
    apply result_bind_inv in Hlookb as (? & _ & (? & _ & (tb' & Htb & [= _ <-])%result_bind_inv)%result_bind_inv).
    rewrite Htrans, Hres in Hta. congruence. }
  unfold spec_num_row_jump in Hloopa, Hloopb.
  rewrite Hfour, Hres in Hloopa. rewrite Hloopa in Hloopb.
  injection Hloopb as _ <- <-.
  split; [done|]. split; [|done].
  cbn [occ_activity save_results]. by rewrite Hfour, Hres.
Qed.

Lemma later_run_ignores_start_table_witness :
  _start_state DemoRuns.four1 ≠ _start_state DemoRuns.four1_alt ∧
  _states DemoRuns.four2 = _states DemoRuns.four2_alt ∧
  occ_activity DemoRuns.four2 = occ_activity DemoRuns.four2_alt ∧
  advance (advance Demo.g0 145) 145 = advance (advance Demo.g0 145) 145.
Proof.
  split.
  - intros Heq.
    assert (H : _start_state DemoRuns.four1 !! "wd"
                = _start_state DemoRuns.four1_alt !! "wd") by by rewrite Heq.
    vm_compute in H. discriminate H.
  - apply (later_run_ignores_start_table DemoRuns.four1 DemoRuns.four1_alt
             "wd" (advance Demo.g0 145));
      [reflexivity | reflexivity | vm_compute; reflexivity | reflexivity
      | reflexivity | reflexivity
      | exact demo_four_second_run | exact demo_four_alt_second_run].
Defined.

(** ** The range of the chain states *)

(** Each state of a trajectory was drawn from a row of the transition
    table without its two leading columns, so it is an index into the rest
    of that row. *)
Lemma run_states_within_width self day_of_week g self' g'
    start_state act_transition trajectory (n : Z) :
  run self day_of_week g = (Ok self', g') →
  lookup_tables self day_of_week = Ok (start_state, act_transition) →
  Forall (λ row : list Q, Z.of_nat (length row) ≤ n + 2) act_transition →
  _states self' = Some trajectory →
  length trajectory = 144%nat ∧
  Forall (λ rawState, 0 ≤ rawState < n) trajectory.
Proof.
  intros Hrun Hlook Hwidth Hstates.
  destruct (run_chain _ _ _ _ _ Hrun)
    as (ss & tbl & s & state0 & tr & Hlook' & _ & _ & _ & -> & Hlen & _ & Hstep).
  rewrite Hlook in Hlook'. injection Hlook' as <- <-.
  injection Hstates as <-. split; [done|].
  apply Forall_lookup. intros t rawState Ht.
  destruct (Hstep t) as (current & drawn & row & _ & Hrow & Hdraw & Hd & _).
  { apply lookup_lt_Some in Ht. lia. }
  assert (drawn = rawState) as -> by congruence.
  apply row_from_2_ok in Hrow as (full & Hfull & ->).
  apply np_index_ok_elem in Hfull.
  pose proof (proj1 (Forall_forall _ _) Hwidth full Hfull) as Hfullw.
  apply get_random_interval_ok in Hdraw as [_ Hrange].
  cbn [dpd_data] in Hrange. rewrite length_drop in Hrange.
  cbv beta in Hfullw. lia.
Qed.

(** The states of the chain stay within the width of the transition table:
    when every row of the table the run reads has at most [n] weights after
    its two leading columns, every state of the trajectory lies in
    [0, n). For tables of the documented shape, with [numStates] weights
    per row, this is the range [0, numStates). *)
Theorem trajectory_within_table_width self day_of_week g self' g'
    start_state act_transition trajectory (n : Z) :
  run self day_of_week g = (Ok self', g') →
  lookup_tables self day_of_week = Ok (start_state, act_transition) →
  Forall (λ row : list Q, Z.of_nat (length row) ≤ n + 2) act_transition →
  _states self' = Some trajectory →
  Forall (λ rawState, 0 ≤ rawState < n) trajectory.
Proof.
  intros Hrun Hlook Hwidth Hstates.
  by destruct (run_states_within_width _ _ _ _ _ _ _ _ _ Hrun Hlook Hwidth Hstates).
Qed.

Lemma trajectory_within_table_width_witness :
  ∃ start_state act_transition trajectory,
    lookup_tables DemoRuns.seven0 "wd" = Ok (start_state, act_transition) ∧
    Forall (λ row : list Q, Z.of_nat (length row) ≤ 7 + 2) act_transition ∧
    _states DemoRuns.seven1 = Some trajectory ∧
    Forall (λ rawState, 0 ≤ rawState < 7) trajectory.
Proof.
  eexists _, _, _.
  assert (Hlook : lookup_tables DemoRuns.seven0 "wd" = Ok (_, _))
    by (vm_compute; reflexivity).
  match type of Hlook with _ = Ok (_, ?tbl) =>
    assert (Hwidth : Forall (λ row : list Q, Z.of_nat (length row) ≤ 7 + 2) tbl)
      by (apply (bool_decide_unpack _); vm_compute; exact I)
  end.
  assert (Hstates : _states DemoRuns.seven1 = Some _) by reflexivity.
  exact (conj Hlook (conj Hwidth (conj Hstates
    (trajectory_within_table_width _ _ _ _ _ _ _ _ 7
       demo_seven_first_run Hlook Hwidth Hstates)))).
Defined.

(** A run needs the whole stacked table: it can only return when the
    transition table has more than [143 * numRowJump] rows, since the row
    read at the last interval lies at or past that position. *)
Theorem run_needs_all_blocks self day_of_week g self' g'
    start_state act_transition :
  run self day_of_week g = (Ok self', g') →
  lookup_tables self day_of_week = Ok (start_state, act_transition) →
  143 * spec_num_row_jump self < Z.of_nat (length act_transition).
Proof.
  intros Hrun Hlook.
  destruct (run_chain _ _ _ _ _ Hrun)
    as (ss & tbl & s & state0 & tr & Hlook' & _ & _ & _ & _ & Hlen & _ & Hstep).
  rewrite Hlook in Hlook'. injection Hlook' as <- <-.
  destruct (Hstep 142%nat ltac:(lia)) as (_ & before & _ & _ & _ & _ & Hb & Hnn).
  destruct (Hstep 143%nat ltac:(lia)) as (current & _ & row & Hc & Hrow & _).
  cbn [current_state] in Hc. rewrite Hb in Hc. injection Hc as <-.
  apply row_from_2_ok in Hrow as (full & Hfull & _).
  assert (Hjump : 0 ≤ spec_num_row_jump self).
  { unfold spec_num_row_jump. destruct (_four_states self); [|lia].
    rewrite Z.pow_2_r. nia. }
  apply np_index_ok_bound in Hfull; lia.
Qed.

Lemma run_needs_all_blocks_witness :
  ∃ start_state act_transition,
    lookup_tables DemoRuns.four0 "wd" = Ok (start_state, act_transition) ∧
    143 * spec_num_row_jump DemoRuns.four0 < Z.of_nat (length act_transition).
Proof.
  eexists _, _.
  assert (Hlook : lookup_tables DemoRuns.four0 "wd" = Ok (_, _))
    by (vm_compute; reflexivity).
  exact (conj Hlook
    (run_needs_all_blocks _ _ _ _ _ _ _ demo_four_first_run Hlook)).
Defined.

(** ** Counts of a four-state run *)

Lemma decoded_counts_bounds residents rawState :
  0 ≤ residents → 0 ≤ rawState < (residents + 1) ^ 2 →
  0 ≤ Z.min (np_floor_div rawState (residents + 1))
            (np_fmod rawState (residents + 1)) ≤ residents ∧
  0 ≤ Z.max (np_floor_div rawState (residents + 1)
             - np_fmod rawState (residents + 1)) 0 ≤ residents ∧
  Z.min (np_floor_div rawState (residents + 1)) (np_fmod rawState (residents + 1))
  + Z.max (np_floor_div rawState (residents + 1)
           - np_fmod rawState (residents + 1)) 0 ≤ residents.
Proof.
  intros Hres [Hlo Hhi].
  destruct (np_decode_nonneg rawState (residents + 1)) as [-> ->]; [lia|done|].
  assert (Hh : 0 ≤ rawState / (residents + 1) ≤ residents).
  { split; [apply Z.div_pos; lia|].
    apply Z.lt_succ_r, Z.div_lt_upper_bound; lia. }
  pose proof (Z.mod_pos_bound rawState (residents + 1) ltac:(lia)).
  lia.
Qed.

(** On transition tables of the documented shape the counts of a four-state
    run are sound without further assumption: with a resident count that
    is not negative and rows of at most [(residents + 1)^2] weights after
    the two leading columns, at every interval the number of active
    residents and the number of inactive residents at home lie in
    [0, residents], and so does their sum. *)
Theorem four_state_counts_bounded self day_of_week g self' g'
    start_state act_transition :
  run self day_of_week g = (Ok self', g') →
  _four_states self = true →
  0 ≤ _residents self →
  lookup_tables self day_of_week = Ok (start_state, act_transition) →
  Forall (λ row : list Q,
            Z.of_nat (length row) ≤ (_residents self + 1) ^ 2 + 2)
         act_transition →
  ∀ t, (t < 144)%nat → ∃ active inactive,
    occ_activity self' !! t = Some active ∧
    occ_no_activity self' !! t = Some inactive ∧
    0 ≤ active ≤ _residents self ∧
    0 ≤ inactive ≤ _residents self ∧
    active + inactive ≤ _residents self.
Proof.
  intros Hrun Hfour Hres Hlook Hwidth t Ht.
  destruct (run_chain _ _ _ _ _ Hrun)
    as (_ & _ & _ & _ & trajectory & _ & _ & _ & _ & Hself & _).
  assert (Hstates : _states self' = Some trajectory) by by subst self'.
  destruct (run_states_within_width _ _ _ _ _ _ _ _ _ Hrun Hlook Hwidth Hstates)
    as [Hlen Hrange].
  destruct (lookup_lt_is_Some_2 trajectory t) as [rawState Hraw]; [lia|].
  pose proof (proj1 (Forall_lookup _ _) Hrange t rawState Hraw) as Hin.
  subst self'. do 2 eexists.
  rewrite (occ_activity_lookup self trajectory Hfour t rawState Hraw).
  rewrite (occ_no_activity_lookup self trajectory Hfour t rawState Hraw).
  split; [done|]. split; [done|].
  by apply decoded_counts_bounds.
Qed.

Lemma four_state_counts_bounded_witness :
  ∃ start_state act_transition,
    lookup_tables DemoRuns.four0 "wd" = Ok (start_state, act_transition) ∧
    Forall (λ row : list Q,
              Z.of_nat (length row) ≤ (_residents DemoRuns.four0 + 1) ^ 2 + 2)
           act_transition ∧
    ∀ t, (t < 144)%nat → ∃ active inactive,
      occ_activity DemoRuns.four1 !! t = Some active ∧
      occ_no_activity DemoRuns.four1 !! t = Some inactive ∧
      0 ≤ active ≤ _residents DemoRuns.four0 ∧
      0 ≤ inactive ≤ _residents DemoRuns.four0 ∧
      active + inactive ≤ _residents DemoRuns.four0.
Proof.
  eexists _, _.
  assert (Hlook : lookup_tables DemoRuns.four0 "wd" = Ok (_, _))
    by (vm_compute; reflexivity).
  match type of Hlook with _ = Ok (_, ?tbl) =>
    assert (Hwidth : Forall (λ row : list Q,
              Z.of_nat (length row) ≤ (_residents DemoRuns.four0 + 1) ^ 2 + 2) tbl)
      by (apply (bool_decide_unpack _); vm_compute; exact I)
  end.
  exact (conj Hlook (conj Hwidth
    (four_state_counts_bounded _ _ _ _ _ _ _ demo_four_first_run eq_refl
       ltac:(cbv; discriminate) Hlook Hwidth))).
Defined.

(** ** The start index of the four-state variant *)

(** The remapped start index decodes to what it was made from: for a drawn
    index [s] whose class [s mod 7] does not exceed the resident count, the
    initial state [(residents + 1) * floor(s / 7) + s mod 7] has the home
    count [floor(s / 7)] and the active count [s mod 7] under the decoding
    that [run] applies to the trajectory. *)
Theorem start_state_decodes residents s :
  0 ≤ residents → 0 ≤ s → s `mod` 7 ≤ residents →
  np_floor_div (four_state_start residents s) (residents + 1) = s / 7 ∧
  np_fmod (four_state_start residents s) (residents + 1) = s `mod` 7.
Proof.
  intros Hres Hs Hclass.
  rewrite four_state_start_nonneg by done.
  pose proof (Z.mod_pos_bound s 7 ltac:(lia)) as Hm.
  assert (Hq : 0 ≤ s / 7) by (apply Z.div_pos; lia).
  destruct (np_decode_nonneg ((residents + 1) * (s / 7) + s `mod` 7)
              (residents + 1)) as [-> ->]; [lia|nia|].
  split.
  - symmetry. apply (Z.div_unique _ _ _ (s `mod` 7)); lia.
  - symmetry. apply (Z.mod_unique _ _ (s / 7)); lia.
Qed.

Lemma start_state_decodes_witness :
  np_floor_div (four_state_start 1 8) (1 + 1) = 8 / 7 ∧
  np_fmod (four_state_start 1 8) (1 + 1) = 8 `mod` 7.
Proof.
  apply (start_state_decodes 1 8); [lia | lia | vm_compute; discriminate].
Defined.

(** For six residents the start table is indexed by the chain states
    themselves: the remapping leaves every drawn index as it is. *)
Theorem six_residents_start_unchanged s :
  0 ≤ s → four_state_start 6 s = s.
Proof.
  intros Hs. rewrite four_state_start_nonneg by done.
  pose proof (Z.div_mod s 7 ltac:(lia)). lia.
Qed.

Lemma six_residents_start_unchanged_witness : four_state_start 6 30 = 30.
Proof. apply six_residents_start_unchanged. lia. Defined.

(** A drawn index whose home class [floor(s / 7)] and activity class
    [s mod 7] both stay within the resident count is remapped to a state of
    the chain, that is into [0, (residents + 1)^2). *)
Theorem start_state_in_range residents s :
  0 ≤ residents → 0 ≤ s → s / 7 ≤ residents → s `mod` 7 ≤ residents →
  0 ≤ four_state_start residents s < (residents + 1) ^ 2.
Proof.
  intros Hres Hs Hhome Hclass.
  rewrite four_state_start_nonneg by done.
  pose proof (Z.mod_pos_bound s 7 ltac:(lia)) as Hm.
  assert (Hq : 0 ≤ s / 7) by (apply Z.div_pos; lia).
  rewrite Z.pow_2_r. nia.
Qed.

Lemma start_state_in_range_witness :
  0 ≤ four_state_start 1 8 < (1 + 1) ^ 2.
Proof.
  apply (start_state_in_range 1 8);
    [lia | lia | vm_compute; discriminate | vm_compute; discriminate].
Defined.
